(** * Promtail target managers: [pkg/promtail/targets/manager.go]

    Shallow embedding of [NewTargetManagers] and of the methods of the
    aggregate [TargetManagers] (Ready, ActiveTargets, AllTargets, Stop).

    The collaborators of this file (positions.New, the per-kind
    constructors, the stdin manager, the metrics constructors) are opaque
    here: they are the fields of an environment record [Env], and every
    effect they perform that the code orders is recorded as an [event] in a
    trace returned next to the Go result pair.

    Go's [range] over a map visits the keys in an unspecified order: every
    [range] over a map is modelled through a [RangeOrder], a function giving
    the visited (key, value) list, and theorems that depend on it assume
    only that this list is a permutation of the map's bindings. *)

From stdpp Require Import base gmap strings list.

Section TargetManagers.

(** The element types the code handles but never inspects. *)
Context {Target : Type}.
Context {JournalTargetConfig SyslogTargetConfig GcplogTargetConfig
         PushTargetConfig : Type}.

(** [scrapeconfig.Config]: the fields [NewTargetManagers] looks at. *)
Record Config := {
  JobName : string;
  JournalConfig : option JournalTargetConfig;
  SyslogConfig : option SyslogTargetConfig;
  GcplogConfig : option GcplogTargetConfig;
  PushConfig : option PushTargetConfig;
}.

(** [cfg.HasServiceDiscoveryConfig()], a method of the scrapeconfig package:
    any implementation. *)
Variable HasServiceDiscoveryConfig : Config -> bool.

(** [file.Config]; only its [Stdin] flag is read here. *)
Record FileConfig := { Stdin : bool }.

(** Go [error] values: [errors.New msg] and [errors.Wrap(err, msg)]. *)
Inductive error :=
| ErrorNew (msg : string)
| ErrorWrap (err : error) (msg : string).

(** [positions.Positions], [file.Metrics]/[syslog.Metrics]/[gcplog.Metrics]. *)
Inductive Positions := MkPositions (id : nat).
Inductive Metrics := MkMetrics (kind : string).

(** The [targetManager] interface: an identity and what its methods return. *)
Record targetManager := {
  tm_id : nat;
  tm_Ready : bool;
  tm_ActiveTargets : gmap string (list Target);
  tm_AllTargets : gmap string (list Target);
}.

(** [TargetManagers]; a nil [positions] interface is [None]. *)
Record TargetManagers := {
  targetManagers : list targetManager;
  positions : option Positions;
}.

(** Observable effects, in the order the code performs them. *)
Inductive event :=
| EvNewStdinTargetManager
| EvPositionsNew
| EvNewMetrics (kind : string)
| EvNewTargetManager (kind : string)
| EvStop (id : nat)
| EvPositionsStop.

(** The collaborators; [inr e] is a non-nil [err]. *)
Record Env := {
  NewStdinTargetManager : list Config -> targetManager + error;
  positions_New : Positions + error;
  NewFileTargetManager :
    option Metrics -> Positions -> list Config -> FileConfig -> targetManager + error;
  NewJournalTargetManager : Positions -> list Config -> targetManager + error;
  NewSyslogTargetManager : option Metrics -> list Config -> targetManager + error;
  NewGcplogTargetManager : option Metrics -> list Config -> targetManager + error;
  NewPushTargetManager : list Config -> targetManager + error;
}.

(** The visiting order of a [range] over a map. *)
Definition RangeOrder := forall A : Type, gmap string A -> list (string * A).

Definition RangeOrderOK (ord : RangeOrder) : Prop :=
  forall (A : Type) (m : gmap string A), ord A m ≡ₚ map_to_list m.

Definition FileScrapeConfigs := "fileScrapeConfigs"%string.
Definition JournalScrapeConfigs := "journalScrapeConfigs"%string.
Definition SyslogScrapeConfigs := "syslogScrapeConfigs"%string.
Definition GcplogScrapeConfigs := "gcplogScrapeConfigs"%string.
Definition PushScrapeConfigs := "pushScrapeConfigs"%string.

(** The [switch] of lines 71-84: the key of the first matching case, or
    [None] for the [default] case. *)
Definition classify (cfg : Config) : option string :=
  if HasServiceDiscoveryConfig cfg then Some FileScrapeConfigs
  else match JournalConfig cfg with
  | Some _ => Some JournalScrapeConfigs
  | None =>
    match SyslogConfig cfg with
    | Some _ => Some SyslogScrapeConfigs
    | None =>
      match GcplogConfig cfg with
      | Some _ => Some GcplogScrapeConfigs
      | None =>
        match PushConfig cfg with
        | Some _ => Some PushScrapeConfigs
        | None => None
        end
      end
    end
  end.

(** [targetScrapeConfigs[k] = append(targetScrapeConfigs[k], cfg)]; a
    missing key reads as the nil slice. *)
Definition append_config (k : string) (cfg : Config)
    (m : gmap string (list Config)) : gmap string (list Config) :=
  <[k := default [] (m !! k) ++ [cfg]]> m.

(** The loop of lines 70-85, with its early [return nil, err]. *)
Fixpoint group_scrape_configs (scrapeConfigs : list Config)
    (targetScrapeConfigs : gmap string (list Config))
    : gmap string (list Config) + error :=
  match scrapeConfigs with
  | [] => inl targetScrapeConfigs
  | cfg :: rest =>
    match classify cfg with
    | Some k => group_scrape_configs rest (append_config k cfg targetScrapeConfigs)
    | None => inr (ErrorNew "unknown scrape config")
    end
  end.

(** [len(targetScrapeConfigs[k]) > 0]. *)
Definition has_configs (m : gmap string (list Config)) (k : string) : bool :=
  Nat.ltb 0 (length (default [] (m !! k))).

(** Lines 87-100: the file, syslog and gcplog metrics, each created only
    when its group is non-empty. *)
Definition make_metrics (m : gmap string (list Config))
    : list event * (option Metrics * option Metrics * option Metrics) :=
  let '(ev1, fileMetrics) :=
    if has_configs m FileScrapeConfigs
    then ([EvNewMetrics FileScrapeConfigs], Some (MkMetrics FileScrapeConfigs))
    else ([], None) in
  let '(ev2, syslogMetrics) :=
    if has_configs m SyslogScrapeConfigs
    then ([EvNewMetrics SyslogScrapeConfigs], Some (MkMetrics SyslogScrapeConfigs))
    else ([], None) in
  let '(ev3, gcplogMetrics) :=
    if has_configs m GcplogScrapeConfigs
    then ([EvNewMetrics GcplogScrapeConfigs], Some (MkMetrics GcplogScrapeConfigs))
    else ([], None) in
  (ev1 ++ ev2 ++ ev3, (fileMetrics, syslogMetrics, gcplogMetrics)).

(** [if err != nil { return nil, errors.Wrap(err, msg) }]. *)
Definition wrap_err (r : targetManager + error) (msg : string)
    : targetManager + error :=
  match r with
  | inl t => inl t
  | inr e => inr (ErrorWrap e msg)
  end.

(** The body of the [switch target] of lines 103-164, for one key. *)
Definition make_target_manager (env : Env) (pos : Positions)
    (fileMetrics syslogMetrics gcplogMetrics : option Metrics)
    (targetConfig : FileConfig) (target : string) (scrapeConfigs : list Config)
    : list event * (targetManager + error) :=
  if String.eqb target FileScrapeConfigs then
    ([EvNewTargetManager target],
     wrap_err (NewFileTargetManager env fileMetrics pos scrapeConfigs targetConfig)
       "failed to make file target manager")
  else if String.eqb target JournalScrapeConfigs then
    ([EvNewTargetManager target],
     wrap_err (NewJournalTargetManager env pos scrapeConfigs)
       "failed to make journal target manager")
  else if String.eqb target SyslogScrapeConfigs then
    ([EvNewTargetManager target],
     wrap_err (NewSyslogTargetManager env syslogMetrics scrapeConfigs)
       "failed to make syslog target manager")
  else if String.eqb target GcplogScrapeConfigs then
    ([EvNewTargetManager target],
     wrap_err (NewGcplogTargetManager env gcplogMetrics scrapeConfigs)
       "failed to make syslog target manager")
  else if String.eqb target PushScrapeConfigs then
    ([EvNewTargetManager target],
     wrap_err (NewPushTargetManager env scrapeConfigs)
       "failed to make Loki Push API target manager")
  else ([], inr (ErrorNew "unknown scrape config")).

(** The loop of lines 102-165 over the visited (key, group) list, appending
    to [targetManagers]; the first error returns. *)
Fixpoint construct_loop (env : Env) (pos : Positions)
    (fileMetrics syslogMetrics gcplogMetrics : option Metrics)
    (targetConfig : FileConfig) (it : list (string * list Config))
    (acc : list targetManager) : list event * (list targetManager + error) :=
  match it with
  | [] => ([], inl acc)
  | (target, scrapeConfigs) :: rest =>
    let '(ev, r) := make_target_manager env pos fileMetrics syslogMetrics
                      gcplogMetrics targetConfig target scrapeConfigs in
    match r with
    | inr e => (ev, inr e)
    | inl t =>
      let '(ev', r') := construct_loop env pos fileMetrics syslogMetrics
                          gcplogMetrics targetConfig rest (acc ++ [t]) in
      (ev ++ ev', r')
    end
  end.

(** [NewTargetManagers]: the trace of effects and the pair
    Go pair of a TargetManagers pointer and an error, a nil pointer or error being [None]. *)
Definition NewTargetManagers (env : Env) (ord : RangeOrder)
    (scrapeConfigs : list Config) (targetConfig : FileConfig)
    : list event * (option TargetManagers * option error) :=
  if Stdin targetConfig then
    match NewStdinTargetManager env scrapeConfigs with
    | inr err => ([EvNewStdinTargetManager], (None, Some err))
    | inl stdin =>
      ([EvNewStdinTargetManager],
       (Some {| targetManagers := [stdin]; positions := None |}, None))
    end
  else
    match positions_New env with
    | inr err => ([EvPositionsNew], (None, Some err))
    | inl pos =>
      match group_scrape_configs scrapeConfigs ∅ with
      | inr err => ([EvPositionsNew], (None, Some err))
      | inl targetScrapeConfigs =>
        let '(mev, (fileMetrics, syslogMetrics, gcplogMetrics)) :=
          make_metrics targetScrapeConfigs in
        let '(cev, r) :=
          construct_loop env pos fileMetrics syslogMetrics gcplogMetrics
            targetConfig (ord _ targetScrapeConfigs) [] in
        match r with
        | inr err => ([EvPositionsNew] ++ mev ++ cev, (None, Some err))
        | inl tms =>
          ([EvPositionsNew] ++ mev ++ cev,
           (Some {| targetManagers := tms; positions := Some pos |}, None))
        end
      end
    end.

(** [for job, targets := range m { result[job] = append(result[job], targets...) }]
    over the visited list of one manager's map. *)
Fixpoint merge_targets (result : gmap string (list Target))
    (it : list (string * list Target)) : gmap string (list Target) :=
  match it with
  | [] => result
  | (job, targets) :: rest =>
    merge_targets (<[job := default [] (result !! job) ++ targets]> result) rest
  end.

(** The outer loop of ActiveTargets/AllTargets, [get] being the method. *)
Fixpoint collect_targets (ord : RangeOrder)
    (get : targetManager -> gmap string (list Target))
    (tms : list targetManager) (result : gmap string (list Target))
    : gmap string (list Target) :=
  match tms with
  | [] => result
  | t :: rest => collect_targets ord get rest (merge_targets result (ord _ (get t)))
  end.

Definition ActiveTargets (ord : RangeOrder) (tm : TargetManagers)
    : gmap string (list Target) :=
  collect_targets ord tm_ActiveTargets (targetManagers tm) ∅.

Definition AllTargets (ord : RangeOrder) (tm : TargetManagers)
    : gmap string (list Target) :=
  collect_targets ord tm_AllTargets (targetManagers tm) ∅.

(** [Ready]: the loop with its early [return true]. *)
Fixpoint ready_loop (tms : list targetManager) : bool :=
  match tms with
  | [] => false
  | t :: rest => if tm_Ready t then true else ready_loop rest
  end.

Definition Ready (tm : TargetManagers) : bool := ready_loop (targetManagers tm).

(** [Stop]: the effects, in order. *)
Fixpoint stop_loop (tms : list targetManager) : list event :=
  match tms with
  | [] => []
  | t :: rest => EvStop (tm_id t) :: stop_loop rest
  end.

Definition Stop (tm : TargetManagers) : list event :=
  stop_loop (targetManagers tm) ++
  match positions tm with
  | Some _ => [EvPositionsStop]
  | None => []
  end.

(** The five keys of [targetScrapeConfigs]. *)
Definition scrape_config_keys : list string :=
  [FileScrapeConfigs; JournalScrapeConfigs; SyslogScrapeConfigs;
   GcplogScrapeConfigs; PushScrapeConfigs].


#[global] Instance event_eq_dec : EqDecision event.
Proof. solve_decision. Defined.

End TargetManagers.

(** * Concrete inputs

    A small instance: targets and job names are strings, the per-kind
    config payloads are [unit], and a config has a service-discovery block
    when its job name says so. *)

Module Examples.

Abbreviation Cfg := (@Config unit unit unit unit).

Definition mk_cfg (name : string) (j s g p : option unit) : Cfg :=
  {| JobName := name; JournalConfig := j; SyslogConfig := s;
     GcplogConfig := g; PushConfig := p |}.

Definition file_a : Cfg := mk_cfg "files-a" None None None None.
Definition file_b : Cfg := mk_cfg "files-b" None None None None.
Definition journal_cfg : Cfg := mk_cfg "journal" (Some tt) None None None.
Definition gcplog_cfg : Cfg := mk_cfg "gcplog" None None (Some tt) None.
Definition unknown_cfg : Cfg := mk_cfg "unknown" None None None None.

Definition has_sd (c : Cfg) : bool :=
  String.eqb (JobName c) "files-a" || String.eqb (JobName c) "files-b".

Definition backend (id : nat) (ready : bool)
    (active all : gmap string (list string)) : @targetManager string :=
  {| tm_id := id; tm_Ready := ready; tm_ActiveTargets := active;
     tm_AllTargets := all |}.

(** Positions and the gcplog constructor succeed or fail on request; every
    other constructor succeeds. *)
Definition env (positions_ok gcplog_ok : bool) : @Env string unit unit unit unit :=
  {| NewStdinTargetManager := fun _ => inl (backend 0 true ∅ ∅);
     positions_New :=
       if positions_ok then inl (MkPositions 1)
       else inr (ErrorNew "open positions file: permission denied");
     NewFileTargetManager := fun _ _ _ _ => inl (backend 1 true ∅ ∅);
     NewJournalTargetManager := fun _ _ => inl (backend 2 true ∅ ∅);
     NewSyslogTargetManager := fun _ _ => inl (backend 3 true ∅ ∅);
     NewGcplogTargetManager := fun _ _ =>
       if gcplog_ok then inl (backend 4 true ∅ ∅)
       else inr (ErrorNew "pubsub: subscription not found");
     NewPushTargetManager := fun _ => inl (backend 5 true ∅ ∅) |}.

(** The order in which stdpp lists a map's bindings. *)
Definition ord : RangeOrder := fun A m => map_to_list m.

Definition no_stdin : FileConfig := {| Stdin := false |}.
Definition with_stdin : FileConfig := {| Stdin := true |}.

(** Two backends reporting targets under the same job. *)
Definition two_backends : @TargetManagers string :=
  {| targetManagers :=
       [backend 1 false {[ "x" := ["t1"] ]} {[ "x" := ["t1"; "d1"] ]};
        backend 2 true {[ "x" := ["t2"]; "y" := ["t3"] ]} {[ "x" := ["t2"] ]}];
     positions := Some (MkPositions 1) |}.

(** Another visiting order: the bindings listed backwards. *)
Definition ord_rev : RangeOrder := fun A m => rev (map_to_list m).

(** The same two backends, listed the other way round. *)
Definition two_backends_rev : @TargetManagers string :=
  {| targetManagers := rev (targetManagers two_backends);
     positions := Some (MkPositions 1) |}.

End Examples.

(** * Properties *)

Section Properties.

Context {Target : Type}.
Context {JournalTargetConfig SyslogTargetConfig GcplogTargetConfig
         PushTargetConfig : Type}.

Abbreviation Config :=
  (@Config JournalTargetConfig SyslogTargetConfig GcplogTargetConfig PushTargetConfig).
Abbreviation Env :=
  (@Env Target JournalTargetConfig SyslogTargetConfig GcplogTargetConfig PushTargetConfig).

Variable HasServiceDiscoveryConfig : Config -> bool.

(** ** Stop *)

Lemma stop_loop_map (tms : list (@targetManager Target)) :
  stop_loop tms = map (fun t => EvStop (tm_id t)) tms.
Proof. induction tms as [|t tms IH]; simpl; [done | by rewrite IH]. Qed.

(** Claim C2: [Stop] stops every backend, in the order of the manager's
    list, and only then stops the position store; without a position store
    (the stdin manager) nothing else is stopped. [Stop] returns no error. *)
Theorem Stop_backends_then_positions (tm : @TargetManagers Target) :
  Stop tm = map (fun t => EvStop (tm_id t)) (targetManagers tm) ++
            match positions tm with
            | Some _ => [EvPositionsStop]
            | None => []
            end /\
  (EvPositionsStop ∈ Stop tm <-> is_Some (positions tm)).
Proof.
  unfold Stop. rewrite stop_loop_map. split; [done|].
  rewrite elem_of_app, list_elem_of_In, in_map_iff.
  destruct (positions tm) as [p|]; split.
  - intros _. by eexists.
  - intros _. right. by apply list_elem_of_singleton.
  - intros [[t [Ht _]] | Hin]; [discriminate | by apply elem_of_nil in Hin].
  - intros [? Hx]; discriminate.
Qed.

(** ** Ready *)

(** Claim C5: [Ready] is true exactly when some backend is ready; so it is
    false with no backend, or when none is ready. *)
Theorem Ready_iff_some_backend_ready (tm : @TargetManagers Target) :
  Ready tm = true <-> Exists (fun t => tm_Ready t = true) (targetManagers tm).
Proof.
  unfold Ready. induction (targetManagers tm) as [|t tms IH]; simpl.
  - split; [discriminate | intros H; inversion H].
  - destruct (tm_Ready t) eqn:Ht; split.
    + intros _. by constructor.
    + done.
    + intros H. apply Exists_cons_tl, IH, H.
    + intros H. inversion H as [? ? Hh | ? ? Ht']; subst;
        [congruence | by apply IH].
Qed.

(** ** Stdin short-circuit *)

(** Claim C3: with [Stdin] set and the stdin manager built, the result is a
    manager with exactly that one backend and no position store, whatever
    the scrape configs; only the stdin manager is created. *)
Theorem NewTargetManagers_stdin (env : Env) (ord : RangeOrder)
    (scrapeConfigs : list Config) (targetConfig : FileConfig)
    (stdin : @targetManager Target) :
  Stdin targetConfig = true ->
  NewStdinTargetManager env scrapeConfigs = inl stdin ->
  exists tm,
    NewTargetManagers HasServiceDiscoveryConfig env ord scrapeConfigs targetConfig
      = ([EvNewStdinTargetManager], (Some tm, None)) /\
    targetManagers tm = [stdin] /\ length (targetManagers tm) = 1 /\
    positions tm = None.
Proof.
  intros Hs He. unfold NewTargetManagers. rewrite Hs, He. by eexists.
Qed.

(** ** Result shape *)

(** Claim C10: [NewTargetManagers] returns either a manager and a nil error
    or a nil manager and an error, on every path. *)
Theorem NewTargetManagers_manager_xor_error (env : Env) (ord : RangeOrder)
    (scrapeConfigs : list Config) (targetConfig : FileConfig) :
  (exists tm, (NewTargetManagers HasServiceDiscoveryConfig env ord scrapeConfigs
                 targetConfig).2 = (Some tm, None)) \/
  (exists err, (NewTargetManagers HasServiceDiscoveryConfig env ord scrapeConfigs
                  targetConfig).2 = (None, Some err)).
Proof.
  unfold NewTargetManagers.
  destruct (Stdin targetConfig).
  - destruct (NewStdinTargetManager env scrapeConfigs); simpl; eauto.
  - destruct (positions_New env) as [pos|e]; simpl; [|eauto].
    destruct (group_scrape_configs _ _ ∅) as [g|e]; simpl; [|eauto].
    destruct (make_metrics g) as [mev [[fm sm] gm]].
    destruct (construct_loop _ _ _ _ _ _ _ _) as [cev [tms|e]]; simpl; eauto.
Qed.

(** ** ActiveTargets / AllTargets *)

Lemma merge_targets_lookup (result : gmap string (list Target))
    (l : list (string * list Target)) (job : string) :
  NoDup l.*1 ->
  merge_targets result l !! job =
    match (list_to_map l : gmap string (list Target)) !! job with
    | Some ts => Some (default [] (result !! job) ++ ts)
    | None => result !! job
    end.
Proof.
  revert result. induction l as [|[j ts] l IH]; intros result Hnd; simpl; [done|].
  apply NoDup_cons in Hnd as [Hj Hnd].
  rewrite IH by done.
  destruct (decide (job = j)) as [->|Hne].
  - rewrite (not_elem_of_list_to_map_1 l j Hj), !lookup_insert_eq. done.
  - rewrite !lookup_insert_ne by done. done.
Qed.

Lemma merge_targets_range (ord : RangeOrder) (result m : gmap string (list Target))
    (job : string) :
  RangeOrderOK ord ->
  default [] (merge_targets result (ord _ m) !! job) =
    default [] (result !! job) ++ default [] (m !! job).
Proof.
  intros Hord.
  assert (Hnd : NoDup (ord _ m).*1).
  { rewrite (Hord _ m). apply NoDup_fst_map_to_list. }
  assert (Hm : (list_to_map (ord _ m) : gmap string (list Target)) = m).
  { rewrite (list_to_map_proper (ord _ m) (map_to_list m)) by auto.
    apply list_to_map_to_list. }
  rewrite merge_targets_lookup, Hm by done.
  destruct (m !! job); simpl; [done | by rewrite app_nil_r].
Qed.

Lemma collect_targets_lookup (ord : RangeOrder)
    (get : targetManager -> gmap string (list Target))
    (tms : list targetManager) (result : gmap string (list Target)) (job : string) :
  RangeOrderOK ord ->
  default [] (collect_targets ord get tms result !! job) =
    default [] (result !! job) ++ concat (map (fun t => default [] (get t !! job)) tms).
Proof.
  intros Hord. revert result.
  induction tms as [|t tms IH]; intros result; simpl.
  - by rewrite app_nil_r.
  - rewrite IH, merge_targets_range by done. by rewrite app_assoc.
Qed.

(** Claim C6: for every job, ActiveTargets (and AllTargets) maps the job to
    the concatenation, in the order of the backend list, of the lists each
    backend reports for it; a job no backend reports reads as the nil slice.
    This holds for any visiting order of Go's map iteration. *)
Theorem ActiveTargets_AllTargets_concat (ord : RangeOrder)
    (tm : @TargetManagers Target) (job : string) :
  RangeOrderOK ord ->
  default [] (ActiveTargets ord tm !! job) =
    concat (map (fun t => default [] (tm_ActiveTargets t !! job)) (targetManagers tm)) /\
  default [] (AllTargets ord tm !! job) =
    concat (map (fun t => default [] (tm_AllTargets t !! job)) (targetManagers tm)).
Proof.
  intros Hord. unfold ActiveTargets, AllTargets.
  rewrite !collect_targets_lookup by done. by rewrite !lookup_empty.
Qed.

(** ** Classification *)

Lemma group_scrape_configs_filter (scrapeConfigs : list Config)
    (acc g : gmap string (list Config)) (k : string) :
  group_scrape_configs HasServiceDiscoveryConfig scrapeConfigs acc = inl g ->
  default [] (g !! k) =
    default [] (acc !! k) ++
    filter (fun c => classify HasServiceDiscoveryConfig c = Some k) scrapeConfigs.
Proof.
  revert acc. induction scrapeConfigs as [|cfg rest IH]; intros acc Hg; simpl in *.
  - injection Hg as <-. by rewrite app_nil_r.
  - destruct (classify HasServiceDiscoveryConfig cfg) as [k'|] eqn:Hc; [|discriminate].
    rewrite (IH _ Hg). unfold append_config.
    rewrite filter_cons, Hc.
    destruct (decide (k' = k)) as [->|Hne].
    + rewrite lookup_insert_eq, decide_True by done. simpl.
      by rewrite <-app_assoc.
    + rewrite lookup_insert_ne, decide_False by congruence. done.
Qed.

Lemma group_scrape_configs_unknown (scrapeConfigs : list Config)
    (acc : gmap string (list Config)) (cfg : Config) :
  cfg ∈ scrapeConfigs -> classify HasServiceDiscoveryConfig cfg = None ->
  group_scrape_configs HasServiceDiscoveryConfig scrapeConfigs acc
    = inr (ErrorNew "unknown scrape config").
Proof.
  intros Hin Hc. revert acc.
  induction scrapeConfigs as [|c rest IH]; intros acc; simpl.
  - by apply elem_of_nil in Hin.
  - destruct (classify HasServiceDiscoveryConfig c) as [k|] eqn:Hk; [|done].
    apply elem_of_cons in Hin as [->|Hin]; [congruence|].
    by apply IH.
Qed.

Lemma group_scrape_configs_error (scrapeConfigs : list Config)
    (acc : gmap string (list Config)) (err : error) :
  group_scrape_configs HasServiceDiscoveryConfig scrapeConfigs acc = inr err ->
  err = ErrorNew "unknown scrape config".
Proof.
  revert acc. induction scrapeConfigs as [|c rest IH]; intros acc H; simpl in H;
    [discriminate|].
  destruct (classify HasServiceDiscoveryConfig c); [by eapply IH | congruence].
Qed.

(** Claim C9: grouping keeps the input order inside a group: if [A] comes
    before [B] in the scrape configs and both go to group [k], [A] comes
    before [B] in that group. *)
Theorem group_scrape_configs_keeps_order (scrapeConfigs : list Config)
    (g : gmap string (list Config)) (A B : Config) (l1 l2 l3 : list Config)
    (k : string) :
  group_scrape_configs HasServiceDiscoveryConfig scrapeConfigs ∅ = inl g ->
  scrapeConfigs = l1 ++ A :: l2 ++ B :: l3 ->
  classify HasServiceDiscoveryConfig A = Some k ->
  classify HasServiceDiscoveryConfig B = Some k ->
  exists g1 g2 g3, default [] (g !! k) = g1 ++ A :: g2 ++ B :: g3.
Proof.
  intros Hg -> HA HB.
  rewrite (group_scrape_configs_filter _ _ _ k Hg), lookup_empty. simpl.
  rewrite filter_app, filter_cons, decide_True by done.
  rewrite filter_app, filter_cons, decide_True by done.
  by eexists _, _, _.
Qed.

(** Claim C1 (amended): outside stdin mode, each config goes to the group of
    the first case of the switch it matches, in input order; a config that
    matches none makes construction fail before any backend constructor
    runs, with the "unknown scrape config" error when the position store
    was created, and with the position store's error when it was not. *)
Theorem NewTargetManagers_classification (env : Env) (ord : RangeOrder)
    (scrapeConfigs : list Config) (targetConfig : FileConfig) :
  Stdin targetConfig = false ->
  (forall g k,
     group_scrape_configs HasServiceDiscoveryConfig scrapeConfigs ∅ = inl g ->
     default [] (g !! k) =
       filter (fun c => classify HasServiceDiscoveryConfig c = Some k) scrapeConfigs) /\
  (forall cfg, cfg ∈ scrapeConfigs -> classify HasServiceDiscoveryConfig cfg = None ->
     (forall pos, positions_New env = inl pos ->
        NewTargetManagers HasServiceDiscoveryConfig env ord scrapeConfigs targetConfig
          = ([EvPositionsNew], (None, Some (ErrorNew "unknown scrape config")))) /\
     (forall err, positions_New env = inr err ->
        NewTargetManagers HasServiceDiscoveryConfig env ord scrapeConfigs targetConfig
          = ([EvPositionsNew], (None, Some err)))).
Proof.
  intros Hs. split.
  - intros g k Hg. by rewrite (group_scrape_configs_filter _ _ _ k Hg), lookup_empty.
  - intros cfg Hin Hc. unfold NewTargetManagers. rewrite Hs. split.
    + intros pos Hp. rewrite Hp.
      by rewrite (group_scrape_configs_unknown _ _ cfg Hin Hc).
    + intros err Hp. by rewrite Hp.
Qed.

(** Claim C8 (amended): outside stdin mode, the position store is created
    first, before the scrape configs are classified; when classification
    fails after the store was created, construction returns the
    classification error, the store having been created and not stopped. *)
Theorem NewTargetManagers_positions_first (env : Env) (ord : RangeOrder)
    (scrapeConfigs : list Config) (targetConfig : FileConfig) :
  Stdin targetConfig = false ->
  head (NewTargetManagers HasServiceDiscoveryConfig env ord scrapeConfigs
          targetConfig).1 = Some EvPositionsNew /\
  (forall pos err,
     positions_New env = inl pos ->
     group_scrape_configs HasServiceDiscoveryConfig scrapeConfigs ∅ = inr err ->
     err = ErrorNew "unknown scrape config" /\
     NewTargetManagers HasServiceDiscoveryConfig env ord scrapeConfigs targetConfig
       = ([EvPositionsNew], (None, Some err))).
Proof.
  intros Hs. unfold NewTargetManagers. rewrite Hs. split.
  - destruct (positions_New env); [|done].
    destruct (group_scrape_configs _ _ ∅) as [g|]; [|done].
    destruct (make_metrics g) as [mev [[fm sm] gm]].
    destruct (construct_loop _ _ _ _ _ _ _ _) as [cev [|]]; done.
  - intros pos err Hp Hg. rewrite Hp, Hg. split; [|done].
    by eapply group_scrape_configs_error.
Qed.

(** ** Metrics *)

Lemma make_metrics_events (g : gmap string (list Config)) (k : string) :
  EvNewMetrics k ∈ (make_metrics g).1 <->
    (k = FileScrapeConfigs \/ k = SyslogScrapeConfigs \/ k = GcplogScrapeConfigs) /\
    has_configs g k = true.
Proof.
  assert (Hev : (make_metrics g).1 =
    EvNewMetrics <$> filter (fun k => has_configs g k = true)
      [FileScrapeConfigs; SyslogScrapeConfigs; GcplogScrapeConfigs]).
  { unfold make_metrics. rewrite !filter_cons, filter_nil.
    destruct (has_configs g FileScrapeConfigs),
             (has_configs g SyslogScrapeConfigs),
             (has_configs g GcplogScrapeConfigs); done. }
  rewrite Hev, list_elem_of_fmap. split.
  - intros [k' [Hk Hin]]. injection Hk as ->.
    apply list_elem_of_filter in Hin as [Hk Hin].
    rewrite !elem_of_cons, elem_of_nil in Hin. naive_solver.
  - intros [Hk Hc]. exists k. split; [done|].
    apply list_elem_of_filter. split; [done|].
    rewrite !elem_of_cons. naive_solver.
Qed.

Lemma make_target_manager_events (env : Env) pos fm sm gm tc target cfgs ev :
  ev ∈ (make_target_manager env pos fm sm gm tc target cfgs).1 ->
  ev = EvNewTargetManager target.
Proof.
  unfold make_target_manager.
  repeat case_match; simpl; rewrite ?elem_of_cons, ?elem_of_nil; naive_solver.
Qed.

Lemma construct_loop_events (env : Env) pos fm sm gm tc it acc ev :
  ev ∈ (construct_loop env pos fm sm gm tc it acc).1 ->
  exists target, ev = EvNewTargetManager target.
Proof.
  revert acc. induction it as [|[target cfgs] it IH]; intros acc; simpl.
  - intros Hin. by apply elem_of_nil in Hin.
  - destruct (make_target_manager env pos fm sm gm tc target cfgs) as [ev1 r] eqn:Hm.
    assert (H1 : ev ∈ ev1 -> ev = EvNewTargetManager target).
    { intros Hin. eapply make_target_manager_events. rewrite Hm. exact Hin. }
    destruct r as [t|e]; simpl; [|eauto].
    destruct (construct_loop env pos fm sm gm tc it (acc ++ [t])) as [ev2 r2] eqn:Hl.
    simpl. rewrite elem_of_app. intros [Hin|Hin]; [eauto|].
    eapply (IH (acc ++ [t])). rewrite Hl. exact Hin.
Qed.

(** Claim C7 (amended): outside stdin mode, a metrics registry for kind [k]
    is created exactly when the position store was created, every scrape
    config was classified, [k] is the file, syslog or gcplog kind, and the
    group of [k] is non-empty; so the journal and push kinds and empty
    groups never create one. *)
Theorem NewTargetManagers_metrics_lazy (env : Env) (ord : RangeOrder)
    (scrapeConfigs : list Config) (targetConfig : FileConfig) (k : string) :
  Stdin targetConfig = false ->
  EvNewMetrics k ∈ (NewTargetManagers HasServiceDiscoveryConfig env ord
                      scrapeConfigs targetConfig).1 <->
  (exists pos, positions_New env = inl pos) /\
  (exists g,
     group_scrape_configs HasServiceDiscoveryConfig scrapeConfigs ∅ = inl g /\
     (k = FileScrapeConfigs \/ k = SyslogScrapeConfigs \/ k = GcplogScrapeConfigs) /\
     0 < length (default [] (g !! k))).
Proof.
  intros Hs. unfold NewTargetManagers. rewrite Hs.
  destruct (positions_New env) as [pos|err]; simpl.
  2:{ rewrite elem_of_cons, elem_of_nil. split; [naive_solver|].
      intros [[p Hp] _]; discriminate. }
  destruct (group_scrape_configs _ _ ∅) as [g|err] eqn:Hg; simpl.
  2:{ rewrite elem_of_cons, elem_of_nil. split; [naive_solver|].
      intros [_ [g' [Hg' _]]]; discriminate. }
  pose proof (make_metrics_events g k) as Hmk.
  destruct (make_metrics g) as [mev [[fm sm] gm]]. simpl in Hmk.
  assert (Hcore : EvNewMetrics k ∈ [EvPositionsNew] ++ mev ++
            (construct_loop env pos fm sm gm targetConfig (ord _ g) []).1 <->
          (k = FileScrapeConfigs \/ k = SyslogScrapeConfigs \/ k = GcplogScrapeConfigs) /\
          has_configs g k = true).
  { rewrite <-Hmk, !elem_of_app, list_elem_of_singleton. split.
    - intros [Hin|[Hin|Hin]]; [discriminate|done|].
      apply construct_loop_events in Hin as [? ?]; discriminate.
    - intros Hin. by right; left. }
  assert (Hlen : has_configs g k = true <-> 0 < length (default [] (g !! k))).
  { unfold has_configs. apply Nat.ltb_lt. }
  destruct (construct_loop env pos fm sm gm targetConfig (ord _ g) []) as [cev [tms|e]]
    eqn:Hl; simpl in Hcore |- *; rewrite Hcore, Hlen; naive_solver.
Qed.

End Properties.

(** * Further properties of [manager.go] *)

Section MoreProperties.

Context {Target : Type}.
Context {JournalTargetConfig SyslogTargetConfig GcplogTargetConfig
         PushTargetConfig : Type}.

Abbreviation Config :=
  (@Config JournalTargetConfig SyslogTargetConfig GcplogTargetConfig PushTargetConfig).
Abbreviation Env :=
  (@Env Target JournalTargetConfig SyslogTargetConfig GcplogTargetConfig PushTargetConfig).

Variable HasServiceDiscoveryConfig : Config -> bool.

Lemma classify_key (cfg : Config) (k : string) :
  classify HasServiceDiscoveryConfig cfg = Some k -> k ∈ scrape_config_keys.
Proof.
  unfold classify, scrape_config_keys. intros H.
  repeat case_match; simplify_eq; rewrite ?elem_of_cons; naive_solver.
Qed.

(** ** Classification *)

(** The bindings of the accumulated map hold the configs seen so far. *)
Lemma group_scrape_configs_perm (scrapeConfigs : list Config)
    (acc g : gmap string (list Config)) :
  group_scrape_configs HasServiceDiscoveryConfig scrapeConfigs acc = inl g ->
  concat ((map_to_list g).*2) ≡ₚ concat ((map_to_list acc).*2) ++ scrapeConfigs.
Proof.
  revert acc. induction scrapeConfigs as [|cfg rest IH]; intros acc Hg; simpl in Hg.
  - injection Hg as <-. by rewrite app_nil_r.
  - destruct (classify HasServiceDiscoveryConfig cfg) as [k|]; [|discriminate].
    rewrite (IH _ Hg). unfold append_config.
    destruct (acc !! k) as [v|] eqn:Hk; simpl.
    + rewrite <-(insert_delete_eq acc k (v ++ [cfg])).
      rewrite map_to_list_insert by (by rewrite lookup_delete_eq).
      rewrite <-(map_to_list_delete acc k v Hk). simpl.
      solve_Permutation.
    + rewrite map_to_list_insert by done. simpl.
      by rewrite <-Permutation_middle.
Qed.

(** Extra X1: a successful classification partitions the scrape configs:
    the groups, put end to end, are a permutation of the input list, so no
    config is lost or duplicated. *)
Theorem group_scrape_configs_partition (scrapeConfigs : list Config)
    (g : gmap string (list Config)) :
  group_scrape_configs HasServiceDiscoveryConfig scrapeConfigs ∅ = inl g ->
  concat ((map_to_list g).*2) ≡ₚ scrapeConfigs.
Proof.
  intros Hg. rewrite (group_scrape_configs_perm _ _ _ Hg), map_to_list_empty. done.
Qed.

Lemma group_scrape_configs_wf (scrapeConfigs : list Config)
    (acc g : gmap string (list Config)) :
  map_Forall (fun k v => k ∈ scrape_config_keys /\ v <> []) acc ->
  group_scrape_configs HasServiceDiscoveryConfig scrapeConfigs acc = inl g ->
  map_Forall (fun k v => k ∈ scrape_config_keys /\ v <> []) g.
Proof.
  revert acc. induction scrapeConfigs as [|cfg rest IH]; intros acc Hacc Hg;
    simpl in Hg.
  - by injection Hg as <-.
  - destruct (classify HasServiceDiscoveryConfig cfg) as [k|] eqn:Hc; [|discriminate].
    refine (IH _ _ Hg). unfold append_config.
    apply map_Forall_insert_2; [|done]. split.
    + by eapply classify_key.
    + destruct (default [] (acc !! k)); discriminate.
Qed.

(** Extra X2: after a successful classification, every key of the group
    map is one of the five kind keys and every group is non-empty. *)
Theorem group_scrape_configs_keys_nonempty (scrapeConfigs : list Config)
    (g : gmap string (list Config)) (k : string) (v : list Config) :
  group_scrape_configs HasServiceDiscoveryConfig scrapeConfigs ∅ = inl g ->
  g !! k = Some v ->
  k ∈ scrape_config_keys /\ v <> [].
Proof.
  intros Hg Hk. eapply (group_scrape_configs_wf _ ∅ g); [|done|done].
  apply map_Forall_empty.
Qed.

(** Extra X3: classification succeeds exactly when every config matches
    one of the five cases; otherwise its error is "unknown scrape config". *)
Theorem group_scrape_configs_succeeds_iff (scrapeConfigs : list Config)
    (acc : gmap string (list Config)) :
  (exists g, group_scrape_configs HasServiceDiscoveryConfig scrapeConfigs acc = inl g)
    <-> Forall (fun c => is_Some (classify HasServiceDiscoveryConfig c)) scrapeConfigs.
Proof.
  revert acc. induction scrapeConfigs as [|cfg rest IH]; intros acc; simpl.
  - split; [constructor | by eexists].
  - rewrite Forall_cons.
    destruct (classify HasServiceDiscoveryConfig cfg) as [k|] eqn:Hc.
    + rewrite IH. naive_solver.
    + split; [intros [g Hg]; discriminate | intros [[x Hx] _]; discriminate].
Qed.

(** ** Construction loop *)

Lemma make_metrics_trace (g : gmap string (list Config)) :
  (make_metrics g).1 =
    EvNewMetrics <$> filter (fun k => has_configs g k = true)
      [FileScrapeConfigs; SyslogScrapeConfigs; GcplogScrapeConfigs].
Proof.
  unfold make_metrics. rewrite !filter_cons, filter_nil.
  destruct (has_configs g FileScrapeConfigs),
           (has_configs g SyslogScrapeConfigs),
           (has_configs g GcplogScrapeConfigs); done.
Qed.

Lemma Forall2_permute_l {A B} (R : A -> B -> Prop) (l1 l2 : list A) (ts1 : list B) :
  l1 ≡ₚ l2 -> Forall2 R l1 ts1 -> exists ts2, Forall2 R l2 ts2 /\ ts1 ≡ₚ ts2.
Proof.
  intros Hp. revert ts1. induction Hp as [|x l1 l2 Hp IH|x y l|l1 l2 l3 Hp1 IH1 Hp2 IH2];
    intros ts1 HF.
  - exists ts1. done.
  - inversion HF as [|? t ? ts1' Hx HF']; subst.
    destruct (IH _ HF') as [ts2 [HF2 Hts]]. exists (t :: ts2). split; [by constructor|].
    by apply Permutation_skip.
  - inversion HF as [|? t ? ts1' Hy HF']; subst.
    inversion HF' as [|? t' ? ts1'' Hx HF'']; subst.
    exists (t' :: t :: ts1''). split; [by repeat constructor|]. apply Permutation_swap.
  - destruct (IH1 _ HF) as [ts2 [HF2 H12]]. destruct (IH2 _ HF2) as [ts3 [HF3 H23]].
    exists ts3. split; [done|]. by etrans.
Qed.

Lemma make_target_manager_ok (env : Env) pos fm sm gm tc target cfgs t :
  (make_target_manager env pos fm sm gm tc target cfgs).2 = inl t ->
  (make_target_manager env pos fm sm gm tc target cfgs).1 = [EvNewTargetManager target].
Proof. unfold make_target_manager. repeat case_match; simpl; congruence. Qed.

(** The loop succeeds with the managers built for each visited group, in
    visiting order, one constructor event per group. *)
Lemma construct_loop_ok (env : Env) pos fm sm gm tc
    (it : list (string * list Config)) (acc tms : list targetManager) :
  (construct_loop env pos fm sm gm tc it acc).2 = inl tms <->
  exists ts,
    Forall2 (fun kc t => (make_target_manager env pos fm sm gm tc kc.1 kc.2).2 = inl t)
      it ts /\ tms = acc ++ ts.
Proof.
  revert acc. induction it as [|[target cfgs] it IH]; intros acc; simpl.
  - split.
    + intros [= <-]. exists []. split; [constructor | by rewrite app_nil_r].
    + intros [ts [HF ->]]. inversion HF; subst. by rewrite app_nil_r.
  - destruct (make_target_manager env pos fm sm gm tc target cfgs) as [ev r] eqn:Hm.
    destruct r as [t|e]; simpl.
    + destruct (construct_loop env pos fm sm gm tc it (acc ++ [t])) as [ev' r'] eqn:Hl.
      simpl. specialize (IH (acc ++ [t])). rewrite Hl in IH. simpl in IH. rewrite IH.
      split.
      * intros [ts [HF ->]]. exists (t :: ts). split.
        -- constructor; [simpl; by rewrite Hm | done].
        -- by rewrite <-app_assoc.
      * intros [ts [HF ->]]. inversion HF as [|? t0 ? ts' Ht HF']; subst.
        simpl in Ht. rewrite Hm in Ht. simpl in Ht. injection Ht as <-.
        exists ts'. split; [done | by rewrite <-app_assoc].
    + split; [discriminate|].
      intros [ts [HF _]]. inversion HF as [|? t0 ? ts' Ht _]; subst.
      simpl in Ht. rewrite Hm in Ht. discriminate.
Qed.

Lemma construct_loop_ok_events (env : Env) pos fm sm gm tc
    (it : list (string * list Config)) (acc tms : list targetManager) :
  (construct_loop env pos fm sm gm tc it acc).2 = inl tms ->
  (construct_loop env pos fm sm gm tc it acc).1 = EvNewTargetManager <$> it.*1.
Proof.
  revert acc. induction it as [|[target cfgs] it IH]; intros acc; simpl; [done|].
  destruct (make_target_manager env pos fm sm gm tc target cfgs) as [ev r] eqn:Hm.
  destruct r as [t|e]; simpl; [|discriminate].
  pose proof (make_target_manager_ok env pos fm sm gm tc target cfgs t) as Hev.
  rewrite Hm in Hev. simpl in Hev. rewrite (Hev eq_refl).
  specialize (IH (acc ++ [t])).
  destruct (construct_loop env pos fm sm gm tc it (acc ++ [t])) as [ev' r'].
  simpl in *. intros Hr. by rewrite (IH Hr).
Qed.

(** Unfolding a successful non-stdin construction. *)
Lemma NewTargetManagers_ok_inv (env : Env) (ord : RangeOrder)
    (scrapeConfigs : list Config) (targetConfig : FileConfig) tr tm :
  Stdin targetConfig = false ->
  NewTargetManagers HasServiceDiscoveryConfig env ord scrapeConfigs targetConfig
    = (tr, (Some tm, None)) ->
  exists pos g fm sm gm,
    positions_New env = inl pos /\
    group_scrape_configs HasServiceDiscoveryConfig scrapeConfigs ∅ = inl g /\
    make_metrics g = ((make_metrics g).1, (fm, sm, gm)) /\
    (construct_loop env pos fm sm gm targetConfig (ord _ g) []).2
      = inl (targetManagers tm) /\
    tr = [EvPositionsNew] ++ (make_metrics g).1 ++
         (construct_loop env pos fm sm gm targetConfig (ord _ g) []).1 /\
    positions tm = Some pos.
Proof.
  intros Hs. unfold NewTargetManagers. rewrite Hs.
  destruct (positions_New env) as [pos|e] eqn:Hp; [|intros [=]].
  destruct (group_scrape_configs _ _ ∅) as [g|e] eqn:Hg; [|intros [=]].
  destruct (make_metrics g) as [mev [[fm sm] gm]] eqn:Hm.
  destruct (construct_loop env pos fm sm gm targetConfig (ord _ g) []) as [cev [tms|e]]
    eqn:Hl; [|intros [=]].
  intros [= <- <-]. exists pos, g, fm, sm, gm. rewrite Hl, Hm. simpl. done.
Qed.

(** Extra X4: a successful non-stdin construction keeps the position store
    it created, calls each non-empty group's constructor exactly once (the
    constructor events list the group keys, each once), and holds one
    backend per group. *)
Theorem NewTargetManagers_one_backend_per_group (env : Env) (ord : RangeOrder)
    (scrapeConfigs : list Config) (targetConfig : FileConfig) tr tm :
  RangeOrderOK ord ->
  Stdin targetConfig = false ->
  NewTargetManagers HasServiceDiscoveryConfig env ord scrapeConfigs targetConfig
    = (tr, (Some tm, None)) ->
  exists pos g ks,
    positions_New env = inl pos /\ positions tm = Some pos /\
    group_scrape_configs HasServiceDiscoveryConfig scrapeConfigs ∅ = inl g /\
    tr = [EvPositionsNew] ++ (make_metrics g).1 ++ (EvNewTargetManager <$> ks) /\
    ks ≡ₚ (map_to_list g).*1 /\ NoDup ks /\
    length (targetManagers tm) = size g.
Proof.
  intros Hord Hs Hok.
  destruct (NewTargetManagers_ok_inv env ord scrapeConfigs targetConfig tr tm Hs Hok)
    as (pos & g & fm & sm & gm & Hp & Hg & _ & Hl & Htr & Hpos).
  exists pos, g, (ord _ g).*1.
  assert (Hks : (ord _ g).*1 ≡ₚ (map_to_list g).*1) by (by rewrite (Hord _ g)).
  do 3 (split; [done|]).
  split; [by rewrite Htr, (construct_loop_ok_events _ _ _ _ _ _ _ _ _ Hl)|].
  split; [done|]. split.
  { rewrite Hks. apply NoDup_fst_map_to_list. }
  apply construct_loop_ok in Hl as [ts [HF Hts]]. simpl in Hts. subst.
  rewrite <-(Forall2_length _ _ _ HF), <-length_map_to_list.
  apply Permutation_length, Hord.
Qed.

(** Extra X5: a successful construction does not depend on Go's map
    iteration order: under any other visiting order it succeeds as well,
    with the same position store and the same backends, possibly listed in
    another order. *)
Theorem NewTargetManagers_order_independent (env : Env) (ord1 ord2 : RangeOrder)
    (scrapeConfigs : list Config) (targetConfig : FileConfig) tr1 tm1 :
  RangeOrderOK ord1 -> RangeOrderOK ord2 ->
  Stdin targetConfig = false ->
  NewTargetManagers HasServiceDiscoveryConfig env ord1 scrapeConfigs targetConfig
    = (tr1, (Some tm1, None)) ->
  exists tr2 tm2,
    NewTargetManagers HasServiceDiscoveryConfig env ord2 scrapeConfigs targetConfig
      = (tr2, (Some tm2, None)) /\
    targetManagers tm1 ≡ₚ targetManagers tm2 /\ positions tm2 = positions tm1.
Proof.
  intros Hord1 Hord2 Hs Hok.
  destruct (NewTargetManagers_ok_inv env ord1 scrapeConfigs targetConfig tr1 tm1 Hs Hok)
    as (pos & g & fm & sm & gm & Hp & Hg & Hm & Hl & _ & Hpos).
  apply construct_loop_ok in Hl as [ts1 [HF1 Hts1]]. simpl in Hts1.
  assert (Hperm : ord1 _ g ≡ₚ ord2 _ g) by (by rewrite (Hord1 _ g), (Hord2 _ g)).
  destruct (Forall2_permute_l _ _ _ _ Hperm HF1) as [ts2 [HF2 H12]].
  assert (Hl2 : (construct_loop env pos fm sm gm targetConfig (ord2 _ g) []).2 = inl ts2).
  { apply construct_loop_ok. by exists ts2. }
  unfold NewTargetManagers. rewrite Hs, Hp, Hg, Hm.
  destruct (construct_loop env pos fm sm gm targetConfig (ord2 _ g) []) as [cev r].
  simpl in Hl2. subst r.
  eexists _, _. split; [reflexivity|]. simpl. by rewrite Hts1, Hpos.
Qed.

(** ** Queries under reordering of the backends *)

Lemma ready_loop_existsb (tms : list (@targetManager Target)) :
  ready_loop tms = existsb tm_Ready tms.
Proof. induction tms as [|t tms IH]; simpl; [done|]. by destruct (tm_Ready t). Qed.

Lemma existsb_permute {A} (f : A -> bool) (l1 l2 : list A) :
  l1 ≡ₚ l2 -> existsb f l1 = existsb f l2.
Proof.
  induction 1 as [| |x y l|]; simpl; try congruence.
  by rewrite !orb_assoc, (orb_comm (f y)).
Qed.

Lemma concat_map_permute {A B} (f : A -> list B) (l1 l2 : list A) :
  l1 ≡ₚ l2 -> concat (map f l1) ≡ₚ concat (map f l2).
Proof.
  induction 1 as [|x l1 l2 _ IH|x y l|l1 l2 l3 _ IH1 _ IH2]; simpl.
  - done.
  - by apply Permutation_app_head.
  - rewrite !app_assoc. apply Permutation_app_tail, Permutation_app_comm.
  - by etrans.
Qed.

(** Extra X6: reordering the backends of a manager changes neither
    [Ready] nor, up to the order of the targets, the list of targets any
    job maps to in [ActiveTargets] and [AllTargets]. *)
Theorem queries_backend_order_invariant (ord : RangeOrder)
    (tm1 tm2 : @TargetManagers Target) :
  RangeOrderOK ord ->
  targetManagers tm1 ≡ₚ targetManagers tm2 ->
  Ready tm1 = Ready tm2 /\
  (forall job, default [] (ActiveTargets ord tm1 !! job) ≡ₚ
               default [] (ActiveTargets ord tm2 !! job)) /\
  (forall job, default [] (AllTargets ord tm1 !! job) ≡ₚ
               default [] (AllTargets ord tm2 !! job)).
Proof.
  intros Hord Hp. split; [|split].
  - unfold Ready. rewrite !ready_loop_existsb. by apply existsb_permute.
  - intros job. unfold ActiveTargets.
    rewrite !collect_targets_lookup, lookup_empty by done. simpl.
    by apply concat_map_permute.
  - intros job. unfold AllTargets.
    rewrite !collect_targets_lookup, lookup_empty by done. simpl.
    by apply concat_map_permute.
Qed.

(** ** Edge cases *)

(** Extra X7: outside stdin mode with an empty scrape config list, once
    the position store is created, construction succeeds with no backend
    and that store; the manager is not ready, reports no targets, and its
    [Stop] only stops the store. *)
Theorem NewTargetManagers_empty_list (env : Env) (ord : RangeOrder)
    (targetConfig : FileConfig) (pos : Positions) :
  RangeOrderOK ord ->
  Stdin targetConfig = false ->
  positions_New env = inl pos ->
  exists tm,
    NewTargetManagers HasServiceDiscoveryConfig env ord [] targetConfig
      = ([EvPositionsNew], (Some tm, None)) /\
    targetManagers tm = [] /\ positions tm = Some pos /\
    Ready tm = false /\ ActiveTargets ord tm = ∅ /\ AllTargets ord tm = ∅ /\
    Stop tm = [EvPositionsStop].
Proof.
  intros Hord Hs Hp.
  assert (Hnil : ord (list Config) ∅ = []).
  { apply Permutation_nil. rewrite (Hord _ ∅), map_to_list_empty. done. }
  unfold NewTargetManagers. rewrite Hs, Hp. simpl. rewrite Hnil. simpl.
  by eexists.
Qed.

(** Extra X8: construction never stops anything: on no path, successful
    or failing, does [NewTargetManagers] stop a backend or the position
    store; a failure after the store or some backends were created leaves
    them running. *)
Theorem NewTargetManagers_never_stops (env : Env) (ord : RangeOrder)
    (scrapeConfigs : list Config) (targetConfig : FileConfig) :
  (EvPositionsStop ∉ (NewTargetManagers HasServiceDiscoveryConfig env ord
                        scrapeConfigs targetConfig).1) /\
  (forall id, EvStop id ∉ (NewTargetManagers HasServiceDiscoveryConfig env ord
                             scrapeConfigs targetConfig).1).
Proof.
  assert (Hno : forall ev,
    ev ∈ (NewTargetManagers HasServiceDiscoveryConfig env ord scrapeConfigs
            targetConfig).1 ->
    ev = EvNewStdinTargetManager \/ ev = EvPositionsNew \/
    (exists k, ev = EvNewMetrics k) \/ (exists k, ev = EvNewTargetManager k)).
  { intros ev. unfold NewTargetManagers.
    destruct (Stdin targetConfig).
    { destruct (NewStdinTargetManager env scrapeConfigs); simpl;
        rewrite list_elem_of_singleton; auto. }
    destruct (positions_New env) as [pos|e]; simpl;
      [|rewrite list_elem_of_singleton; auto].
    destruct (group_scrape_configs _ _ ∅) as [g|e]; simpl;
      [|rewrite list_elem_of_singleton; auto].
    pose proof (make_metrics_trace g) as Hmk.
    destruct (make_metrics g) as [mev [[fm sm] gm]]. simpl in Hmk. subst mev.
    pose proof (construct_loop_events env pos fm sm gm targetConfig
                  (ord _ g) [] ev) as Hcl.
    destruct (construct_loop env pos fm sm gm targetConfig (ord _ g) [])
      as [cev [tms|e]]; simpl in *;
      rewrite elem_of_cons, elem_of_app, list_elem_of_fmap; naive_solver. }
  split.
  - intros Hin. apply Hno in Hin. naive_solver.
  - intros id Hin. apply Hno in Hin. naive_solver.
Qed.

(** ** Construction errors *)





(** ** More on the queries *)

Lemma merge_targets_range_lookup (ord : RangeOrder)
    (result m : gmap string (list Target)) (job : string) :
  RangeOrderOK ord ->
  merge_targets result (ord _ m) !! job =
    match m !! job with
    | Some ts => Some (default [] (result !! job) ++ ts)
    | None => result !! job
    end.
Proof.
  intros Hord.
  assert (Hnd : NoDup (ord _ m).*1).
  { rewrite (Hord _ m). apply NoDup_fst_map_to_list. }
  assert (Hm : (list_to_map (ord _ m) : gmap string (list Target)) = m).
  { rewrite (list_to_map_proper (ord _ m) (map_to_list m)) by auto.
    apply list_to_map_to_list. }
  by rewrite merge_targets_lookup, Hm.
Qed.

Lemma collect_targets_is_Some (ord : RangeOrder)
    (get : targetManager -> gmap string (list Target))
    (tms : list targetManager) (result : gmap string (list Target)) (job : string) :
  RangeOrderOK ord ->
  is_Some (collect_targets ord get tms result !! job) <->
    is_Some (result !! job) \/ Exists (fun t => is_Some (get t !! job)) tms.
Proof.
  intros Hord. revert result.
  induction tms as [|t tms IH]; intros result; simpl.
  - rewrite Exists_nil. tauto.
  - rewrite IH, Exists_cons, merge_targets_range_lookup by done.
    destruct (get t !! job); split; try naive_solver.
Qed.

(** Extra X11: a job appears in [ActiveTargets] (resp. [AllTargets])
    exactly when at least one backend reports it, even with an empty
    list; no job is invented or dropped. *)
Theorem ActiveTargets_AllTargets_jobs (ord : RangeOrder)
    (tm : @TargetManagers Target) (job : string) :
  RangeOrderOK ord ->
  (is_Some (ActiveTargets ord tm !! job) <->
     Exists (fun t => is_Some (tm_ActiveTargets t !! job)) (targetManagers tm)) /\
  (is_Some (AllTargets ord tm !! job) <->
     Exists (fun t => is_Some (tm_AllTargets t !! job)) (targetManagers tm)).
Proof.
  intros Hord. unfold ActiveTargets, AllTargets.
  rewrite !collect_targets_is_Some, !lookup_empty by done.
  split; split; try tauto; intros [[x Hx]|H]; [discriminate|done|discriminate|done].
Qed.

(** Extra X12: a manager with a single backend (such as the stdin
    manager) answers [Ready], [ActiveTargets] and [AllTargets] exactly as
    that backend does. *)
Theorem single_backend_passthrough (ord : RangeOrder) (t : @targetManager Target)
    (p : option Positions) :
  RangeOrderOK ord ->
  Ready {| targetManagers := [t]; positions := p |} = tm_Ready t /\
  ActiveTargets ord {| targetManagers := [t]; positions := p |} = tm_ActiveTargets t /\
  AllTargets ord {| targetManagers := [t]; positions := p |} = tm_AllTargets t.
Proof.
  intros Hord. split; [unfold Ready; simpl; by destruct (tm_Ready t)|].
  unfold ActiveTargets, AllTargets. simpl.
  split; apply map_eq; intros job;
    rewrite merge_targets_range_lookup, lookup_empty by done;
    by destruct (_ !! job).
Qed.


End MoreProperties.

(** * Concrete runs, witnesses and counterexamples *)

Module Runs.
Import Examples.

Example two_backends_active :
  ActiveTargets ord two_backends !! "x"%string = Some ["t1"; "t2"]%string.
Proof. vm_compute. reflexivity. Qed.

Example two_backends_ready : Ready two_backends = true.
Proof. reflexivity. Qed.

Example two_backends_stop :
  Stop two_backends = [EvStop 1; EvStop 2; EvPositionsStop].
Proof. reflexivity. Qed.

Example group_order :
  group_scrape_configs has_sd [file_a; journal_cfg; file_b] ∅ =
    inl (<[FileScrapeConfigs := [file_a; file_b]]>
           {[ JournalScrapeConfigs := [journal_cfg] ]}).
Proof. vm_compute. reflexivity. Qed.

(** Witness of C3. *)
Lemma NewTargetManagers_stdin_witness :
  exists tm,
    NewTargetManagers has_sd (env true true) ord [file_a; unknown_cfg] with_stdin
      = ([EvNewStdinTargetManager], (Some tm, None)) /\
    targetManagers tm = [backend 0 true ∅ ∅] /\ length (targetManagers tm) = 1 /\
    positions tm = None.
Proof.
  apply (NewTargetManagers_stdin has_sd (env true true) ord [file_a; unknown_cfg]
           with_stdin (backend 0 true ∅ ∅)); reflexivity.
Defined.

(** Witness of C6. *)
Lemma ActiveTargets_AllTargets_concat_witness :
  RangeOrderOK ord /\
  default [] (ActiveTargets ord two_backends !! "x"%string) =
    concat (map (fun t => default [] (tm_ActiveTargets t !! "x"%string))
                (targetManagers two_backends)) /\
  default [] (AllTargets ord two_backends !! "x"%string) =
    concat (map (fun t => default [] (tm_AllTargets t !! "x"%string))
                (targetManagers two_backends)).
Proof.
  assert (Hord : RangeOrderOK ord) by (intros A m; reflexivity).
  split; [exact Hord|].
  apply (ActiveTargets_AllTargets_concat ord two_backends "x"%string Hord).
Defined.

(** Witness of C9. *)
Lemma group_scrape_configs_keeps_order_witness :
  exists g,
    group_scrape_configs has_sd [file_a; journal_cfg; file_b] ∅ = inl g /\
    exists g1 g2 g3,
      default [] (g !! FileScrapeConfigs) = g1 ++ file_a :: g2 ++ file_b :: g3.
Proof.
  eexists. split; [vm_compute; reflexivity|].
  apply (group_scrape_configs_keeps_order has_sd [file_a; journal_cfg; file_b] _
           file_a file_b [] [journal_cfg] [] FileScrapeConfigs);
    [vm_compute; reflexivity | reflexivity | reflexivity | reflexivity].
Defined.

(** Witness of C1 (amended). *)
Lemma NewTargetManagers_classification_witness :
  NewTargetManagers has_sd (env true true) ord [file_a; unknown_cfg] no_stdin
    = ([EvPositionsNew], (None, Some (ErrorNew "unknown scrape config"))).
Proof.
  refine (proj1 (proj2 (NewTargetManagers_classification has_sd (env true true) ord
                  [file_a; unknown_cfg] no_stdin eq_refl) unknown_cfg _ _)
            (MkPositions 1) _);
    [apply list_elem_of_In; simpl; auto | reflexivity | reflexivity].
Defined.

(** Counterexample to C1: the position store fails first, so a list with an
    unrecognised config does not yield the "unknown scrape config" error. *)
Lemma NewTargetManagers_unknown_config_positions_error :
  (NewTargetManagers has_sd (env false true) ord [unknown_cfg] no_stdin).2 =
    (None, Some (ErrorNew "open positions file: permission denied")) /\
  (NewTargetManagers has_sd (env false true) ord [unknown_cfg] no_stdin).2 <>
    (None, Some (ErrorNew "unknown scrape config")).
Proof. split; [reflexivity | vm_compute; discriminate]. Qed.

(** Witness of C8 (amended). *)
Lemma NewTargetManagers_positions_first_witness :
  ErrorNew "unknown scrape config" = ErrorNew "unknown scrape config" /\
  NewTargetManagers has_sd (env true true) ord [journal_cfg; unknown_cfg] no_stdin
    = ([EvPositionsNew], (None, Some (ErrorNew "unknown scrape config"))).
Proof.
  apply (proj2 (NewTargetManagers_positions_first has_sd (env true true) ord
                  [journal_cfg; unknown_cfg] no_stdin eq_refl) (MkPositions 1)
           (ErrorNew "unknown scrape config")); reflexivity.
Defined.

(** Counterexample to C8: with an unrecognised config, the position store has
    already been created when the classification error is returned. *)
Lemma NewTargetManagers_unknown_config_after_positions :
  EvPositionsNew ∈ (NewTargetManagers has_sd (env true true) ord [unknown_cfg]
                      no_stdin).1 /\
  (NewTargetManagers has_sd (env true true) ord [unknown_cfg] no_stdin).2 =
    (None, Some (ErrorNew "unknown scrape config")).
Proof.
  split; [|reflexivity].
  change (EvPositionsNew ∈ [EvPositionsNew]). apply list_elem_of_singleton. done.
Qed.

(** Witness of C7 (amended). *)
Lemma NewTargetManagers_metrics_lazy_witness :
  EvNewMetrics FileScrapeConfigs ∈
    (NewTargetManagers has_sd (env true true) ord [file_a; journal_cfg] no_stdin).1 <->
  (exists pos, positions_New (env true true) = inl pos) /\
  (exists g,
     group_scrape_configs has_sd [file_a; journal_cfg] ∅ = inl g /\
     (FileScrapeConfigs = FileScrapeConfigs \/ FileScrapeConfigs = SyslogScrapeConfigs \/
      FileScrapeConfigs = GcplogScrapeConfigs) /\
     0 < length (default [] (g !! FileScrapeConfigs))).
Proof.
  apply (NewTargetManagers_metrics_lazy has_sd (env true true) ord
           [file_a; journal_cfg] no_stdin FileScrapeConfigs); reflexivity.
Defined.

(** Counterexample to C7: the file group of [[file_a]] is non-empty, but
    when the position store fails no file metrics registry is created. *)
Lemma NewTargetManagers_no_metrics_when_positions_fail :
  (exists g, group_scrape_configs has_sd [file_a] ∅ = inl g /\
             0 < length (default [] (g !! FileScrapeConfigs))) /\
  EvNewMetrics FileScrapeConfigs ∉
    (NewTargetManagers has_sd (env false true) ord [file_a] no_stdin).1.
Proof.
  split.
  - eexists. split; [vm_compute; reflexivity | vm_compute; lia].
  - change (EvNewMetrics FileScrapeConfigs ∉ [EvPositionsNew]).
    rewrite list_elem_of_singleton. discriminate.
Qed.

(** Claim C4: a failing gcplog constructor is reported with the syslog
    message: with one gcplog config whose constructor fails, the error is
    wrapped as "failed to make syslog target manager". *)
Theorem gcplog_failure_wrapped_as_syslog :
  NewTargetManagers has_sd (env true false) ord [gcplog_cfg] no_stdin =
    ([EvPositionsNew; EvNewMetrics GcplogScrapeConfigs;
      EvNewTargetManager GcplogScrapeConfigs],
     (None, Some (ErrorWrap (ErrorNew "pubsub: subscription not found")
                   "failed to make syslog target manager"))).
Proof. vm_compute. reflexivity. Qed.

End Runs.

(** * Witnesses of the further properties *)

Module ExtraRuns.
Import Examples.

Lemma ord_ok : RangeOrderOK ord.
Proof. intros A m. reflexivity. Qed.

Lemma ord_rev_ok : RangeOrderOK ord_rev.
Proof. intros A m. unfold ord_rev. symmetry. apply Permutation_rev. Qed.

Lemma group_scrape_configs_partition_witness :
  exists g,
    group_scrape_configs has_sd [file_a; journal_cfg; file_b] ∅ = inl g /\
    concat ((map_to_list g).*2) ≡ₚ [file_a; journal_cfg; file_b].
Proof.
  eexists. split; [vm_compute; reflexivity|].
  apply (group_scrape_configs_partition has_sd [file_a; journal_cfg; file_b]).
  vm_compute. reflexivity.
Defined.

Lemma group_scrape_configs_keys_nonempty_witness :
  group_scrape_configs has_sd [file_a; journal_cfg; file_b] ∅ =
    inl (<[FileScrapeConfigs := [file_a; file_b]]>
           {[ JournalScrapeConfigs := [journal_cfg] ]}) /\
  FileScrapeConfigs ∈ scrape_config_keys /\ [file_a; file_b] <> [].
Proof.
  assert (Hg : group_scrape_configs has_sd [file_a; journal_cfg; file_b] ∅ =
    inl (<[FileScrapeConfigs := [file_a; file_b]]>
           {[ JournalScrapeConfigs := [journal_cfg] ]})) by (vm_compute; reflexivity).
  split; [exact Hg|].
  apply (group_scrape_configs_keys_nonempty has_sd [file_a; journal_cfg; file_b] _
           FileScrapeConfigs [file_a; file_b] Hg). vm_compute. reflexivity.
Defined.

Lemma NewTargetManagers_one_backend_per_group_witness :
  exists tr tm,
    NewTargetManagers has_sd (env true true) ord [file_a; journal_cfg; file_b] no_stdin
      = (tr, (Some tm, None)) /\
    exists pos g ks,
      positions_New (env true true) = inl pos /\ positions tm = Some pos /\
      group_scrape_configs has_sd [file_a; journal_cfg; file_b] ∅ = inl g /\
      tr = [EvPositionsNew] ++ (make_metrics g).1 ++ (EvNewTargetManager <$> ks) /\
      ks ≡ₚ (map_to_list g).*1 /\ NoDup ks /\
      length (targetManagers tm) = size g.
Proof.
  eexists _, _. split; [vm_compute; reflexivity|].
  apply (NewTargetManagers_one_backend_per_group has_sd (env true true) ord
           [file_a; journal_cfg; file_b] no_stdin);
    [exact ord_ok | reflexivity | vm_compute; reflexivity].
Defined.

Lemma NewTargetManagers_order_independent_witness :
  exists tr1 tm1,
    NewTargetManagers has_sd (env true true) ord [file_a; journal_cfg; gcplog_cfg]
      no_stdin = (tr1, (Some tm1, None)) /\
    exists tr2 tm2,
      NewTargetManagers has_sd (env true true) ord_rev [file_a; journal_cfg; gcplog_cfg]
        no_stdin = (tr2, (Some tm2, None)) /\
      targetManagers tm1 ≡ₚ targetManagers tm2 /\ positions tm2 = positions tm1.
Proof.
  eexists _, _. split; [vm_compute; reflexivity|].
  eapply (NewTargetManagers_order_independent has_sd (env true true) ord ord_rev
           [file_a; journal_cfg; gcplog_cfg] no_stdin);
    [exact ord_ok | exact ord_rev_ok | reflexivity | vm_compute; reflexivity].
Defined.

Lemma queries_backend_order_invariant_witness :
  Ready two_backends = Ready two_backends_rev /\
  (forall job, default [] (ActiveTargets ord two_backends !! job) ≡ₚ
               default [] (ActiveTargets ord two_backends_rev !! job)) /\
  (forall job, default [] (AllTargets ord two_backends !! job) ≡ₚ
               default [] (AllTargets ord two_backends_rev !! job)).
Proof.
  apply (queries_backend_order_invariant ord two_backends two_backends_rev ord_ok).
  simpl. apply Permutation_swap.
Defined.

Lemma NewTargetManagers_empty_list_witness :
  exists tm,
    NewTargetManagers has_sd (env true true) ord [] no_stdin
      = ([EvPositionsNew], (Some tm, None)) /\
    targetManagers tm = [] /\ positions tm = Some (MkPositions 1) /\
    Ready tm = false /\ ActiveTargets ord tm = ∅ /\ AllTargets ord tm = ∅ /\
    Stop tm = [EvPositionsStop].
Proof.
  apply (NewTargetManagers_empty_list has_sd (env true true) ord no_stdin
           (MkPositions 1)); [exact ord_ok | reflexivity | reflexivity].
Defined.



Lemma ActiveTargets_AllTargets_jobs_witness :
  (is_Some (ActiveTargets ord two_backends !! "y"%string) <->
     Exists (fun t => is_Some (tm_ActiveTargets t !! "y"%string))
       (targetManagers two_backends)) /\
  (is_Some (AllTargets ord two_backends !! "y"%string) <->
     Exists (fun t => is_Some (tm_AllTargets t !! "y"%string))
       (targetManagers two_backends)).
Proof. apply (ActiveTargets_AllTargets_jobs ord two_backends "y"%string ord_ok). Defined.

Lemma single_backend_passthrough_witness :
  Ready {| targetManagers := [backend 0 true {[ "stdin" := ["-"] ]} ∅];
           positions := None |} = true /\
  ActiveTargets ord {| targetManagers := [backend 0 true {[ "stdin" := ["-"] ]} ∅];
                       positions := None |} = {[ "stdin" := ["-"] ]} /\
  AllTargets ord {| targetManagers := [backend 0 true {[ "stdin" := ["-"] ]} ∅];
                    positions := None |} = ∅.
Proof.
  exact (single_backend_passthrough ord (backend 0 true {[ "stdin" := ["-"] ]} ∅)
           None ord_ok).
Defined.


End ExtraRuns.
